(** * Nullable[T]: a shallow embedding of package nullable (nullable.go)

    The Go package wraps database/sql's [Null[T]] in a struct [Nullable[T]]
    and adds JSON marshaling.  Methods with a value receiver are embedded
    as pure functions of the receiver; methods with a pointer receiver
    ([UnmarshalJSON], [Scan]) are computations in a state monad whose
    state is the struct the receiver points to and whose result is the
    returned Go [error] ([None] is Go's nil error). *)

From Stdlib Require Import List String Ascii Bool Strings.Byte.
From ExtLib Require Import Structures.Monad Structures.MonadState.
From ExtLib Require Import Data.Monads.StateMonad.
Import ListNotations.
Import MonadNotation.
Local Open Scope monad_scope.
Local Open Scope string_scope.

(** ** Go values the package handles *)

(** A Go []byte. *)
Definition bytes := list byte.

(** A non-nil Go error value, told apart by the package that made it:
    encoding/json (syntax errors, type mismatches, a failing encoder) or
    database/sql (a source that does not convert). *)
Inductive error : Type :=
| json_error
| sql_error.

(** Every Go type has a zero value: what [var zero T] and [*new(T)] give. *)
Class GoType (T : Type) := zero : T.

(** What encoding/json does for the element type T:
    [json.Marshal(v)] and [json.Unmarshal(data, &v)].  The latter writes
    through the pointer it is handed, so it is a computation over the
    pointee. *)
Class JSON (T : Type) := {
  json_Marshal : T -> bytes * option error;
  json_Unmarshal : bytes -> state T (option error)
}.

(** What database/sql does for the element type T: [convertAssign(&v, src)]
    for a non-nil [src].  [driver_Value] is the type of the non-nil dynamic
    values a driver hands to Scan; Go's [any] is [option driver_Value],
    with [None] for nil. *)
Class SQL (T : Type) := {
  driver_Value : Type;
  convertAssign : driver_Value -> state T (option error)
}.

(** A Go pointer *T as far as the package uses it: nil, or the address of
    a cell holding a T. *)
Inductive ptr (T : Type) : Type :=
| nil_ptr : ptr T
| addr_of : T -> ptr T.
Arguments nil_ptr {T}.
Arguments addr_of {T} _.

(** ** The data model *)

(** database/sql's [Null[T]]: the fields V and Valid. *)
Record sql_Null (T : Type) : Type := mk_sql_Null {
  V : T;
  Valid : bool
}.
Arguments mk_sql_Null {T} _ _.
Arguments V {T} _.
Arguments Valid {T} _.

(** [type Nullable[T any] struct { sql.Null[T] }] *)
Record Nullable (T : Type) : Type := mk_Nullable {
  Null : sql_Null T
}.
Arguments mk_Nullable {T} _.
Arguments Null {T} _.

(** Running a computation on a field of the struct in the state:
    [&n.V] handed to a callee, and the embedded [n.Null] as receiver. *)
Definition on_V {T A} (c : state T A) : state (Nullable T) A :=
  mkState (fun n =>
    let (a, v) := runState c (V (Null n)) in
    (a, mk_Nullable (mk_sql_Null v (Valid (Null n))))).

Definition on_Null {T A} (c : state (sql_Null T) A) : state (Nullable T) A :=
  mkState (fun n =>
    let (a, s) := runState c (Null n) in
    (a, mk_Nullable s)).

(** The assignment [n.Valid = b] through a pointer receiver. *)
Definition set_Valid {T} (b : bool) : state (Nullable T) unit :=
  modify (fun n => mk_Nullable (mk_sql_Null (V (Null n)) b)) ;; ret tt.

(** The byte slice [[]byte("null")]. *)
Definition null_literal : bytes := list_byte_of_string "null".

Section NullableOps.

Context {T : Type} `{GoType T} `{JSON T} `{SQL T}.

(** Modelled from the spec: the Scan method of database/sql's Null[T],
    which [Nullable.Scan] calls and which is not part of this package's
    sources.  A nil input stores the zero value and clears Valid; any
    other input sets Valid and lets the driver conversion write V and
    report its error. *)
Definition sql_Null_Scan (value : option driver_Value)
  : state (sql_Null T) (option error) :=
  match value with
  | None => put (mk_sql_Null zero false) ;; ret None
  | Some src =>
      modify (fun n => mk_sql_Null (V n) true) ;;
      mkState (fun n =>
        let (e, v) := runState (convertAssign src) (V n) in
        (e, mk_sql_Null v (Valid n)))
  end.

(** [func NewNullable[T any](value T) Nullable[T]] *)
Definition NewNullable (value : T) : Nullable T :=
  mk_Nullable (mk_sql_Null value true).

(** [func NewNull[T any]() Nullable[T]]: V is left out of the composite
    literal, so it is the zero value. *)
Definition NewNull : Nullable T :=
  mk_Nullable (mk_sql_Null zero false).

(** [func (n Nullable[T]) Ptr() *T] *)
Definition Ptr (n : Nullable T) : ptr T :=
  if negb (Valid (Null n)) then nil_ptr
  else addr_of (V (Null n)).

(** [func (n Nullable[T]) ValueOr(defaultValue T) T] *)
Definition ValueOr (n : Nullable T) (defaultValue : T) : T :=
  if negb (Valid (Null n)) then defaultValue
  else V (Null n).

(** [func (n Nullable[T]) MarshalJSON() ([]byte, error)] *)
Definition MarshalJSON (n : Nullable T) : bytes * option error :=
  if negb (Valid (Null n)) then (null_literal, None)
  else json_Marshal (V (Null n)).

(** [func (n *Nullable[T]) UnmarshalJSON(data []byte) error] *)
Definition UnmarshalJSON (data : bytes) : state (Nullable T) (option error) :=
  if String.eqb (string_of_list_byte data) "null" then
    set_Valid false ;;
    ret None
  else
    set_Valid true ;;
    on_V (json_Unmarshal data).

(** [func (n *Nullable[T]) Scan(value any) error] *)
Definition Scan (value : option driver_Value)
  : state (Nullable T) (option error) :=
  on_Null (sql_Null_Scan value).

(** [func (n Nullable[T]) Value() (T, error)] *)
Definition Value (n : Nullable T) : T * option error :=
  if negb (Valid (Null n)) then (zero, None)
  else (V (Null n), None).

End NullableOps.

(** ** Element types used to run the package

    Two instantiations the package is used at: [Nullable[bool]] and
    [Nullable[*bool]], with encoding/json's treatment of the JSON
    literals, and [Nullable[string]] for the storage side. *)

Module Elem.

(** JSON white space: space, tab, line feed, carriage return. *)
Definition is_json_space (b : byte) : bool :=
  match b with
  | x20 | x09 | x0a | x0d => true
  | _ => false
  end.

Fixpoint skip_space (data : bytes) : bytes :=
  match data with
  | b :: rest => if is_json_space b then skip_space rest else data
  | [] => []
  end.

(** The JSON text with the white space around it removed. *)
Definition trim_space (data : bytes) : string :=
  string_of_list_byte (rev (skip_space (rev (skip_space data)))).

(** The input is the JSON document [null], white space allowed around
    the token. *)
Definition denotes_json_null (data : bytes) : bool :=
  String.eqb (trim_space data) "null".

#[export] Instance GoType_bool : GoType bool := false.
#[export] Instance GoType_ptr {T} : GoType (ptr T) := nil_ptr.
#[export] Instance GoType_string : GoType string := "".

Definition bool_literal (b : bool) : string :=
  if b then "true" else "false".

(** encoding/json on a Go bool: [true] and [false] are stored, [null]
    leaves a non-pointer target as it is, and every other input is an
    error that leaves the target as it is. *)
#[export] Instance JSON_bool : JSON bool := {
  json_Marshal b := (list_byte_of_string (bool_literal b), None);
  json_Unmarshal data :=
    let tok := trim_space data in
    if String.eqb tok "true" then put true ;; ret None
    else if String.eqb tok "false" then put false ;; ret None
    else if String.eqb tok "null" then ret None
    else ret (Some json_error)
}.

(** encoding/json on a Go *bool: a nil pointer is written as [null] and
    [null] is read back as nil; [true] and [false] are read into the
    pointee.  Inputs other than these three tokens are errors; what is
    left in the target on those is not used in this development and is
    given as the target unchanged. *)
#[export] Instance JSON_ptr_bool : JSON (ptr bool) := {
  json_Marshal p :=
    match p with
    | nil_ptr => (null_literal, None)
    | addr_of b => (list_byte_of_string (bool_literal b), None)
    end;
  json_Unmarshal data :=
    let tok := trim_space data in
    if String.eqb tok "true" then put (addr_of true) ;; ret None
    else if String.eqb tok "false" then put (addr_of false) ;; ret None
    else if String.eqb tok "null" then put nil_ptr ;; ret None
    else ret (Some json_error)
}.

(** database/sql on a Go bool, for a driver that hands over bool
    values: the source is assigned to the destination. *)
#[export] Instance SQL_bool : SQL bool := {
  driver_Value := bool;
  convertAssign src := put src ;; ret None
}.

#[export] Instance SQL_ptr_bool : SQL (ptr bool) := {
  driver_Value := bool;
  convertAssign src := put (addr_of src) ;; ret None
}.

End Elem.

(** ** The display string *)

(** What fmt does for the element type T: [fmt.Sprintf("%v", v)]. *)
Class Fmt (T : Type) := fmt_v : T -> string.

Section NullableString.

Context {T : Type} `{Fmt T}.

(** [func (n Nullable[T]) String() string] *)
Definition String (n : Nullable T) : string :=
  if negb (Valid (Null n)) then "null"
  else fmt_v (V (Null n)).

End NullableString.

Module ElemFmt.

(** The verb %v prints a bool as the word true or false, and a string
    as it is. *)
#[export] Instance Fmt_bool : Fmt bool := Elem.bool_literal.
#[export] Instance Fmt_string : Fmt string := fun s => s.

End ElemFmt.

(** ** The invariant of the data model *)

(** "When Valid is false, V is the zero value of T." *)
Definition null_is_zero {T} `{GoType T} (n : Nullable T) : Prop :=
  Valid (Null n) = false -> V (Null n) = zero.

(** ** Basic facts *)

Lemma is_null_literal (data : bytes) :
  string_of_list_byte data = "null" <-> data = null_literal.
Proof.
  unfold null_literal. split; intros E.
  - rewrite <- E. symmetry. apply list_byte_of_string_of_list_byte.
  - rewrite E. apply string_of_list_byte_of_string.
Qed.

Lemma null_test_true (data : bytes) :
  data = null_literal -> String.eqb (string_of_list_byte data) "null" = true.
Proof.
  intros E. apply String.eqb_eq. now apply is_null_literal.
Qed.

Lemma null_test_false (data : bytes) :
  data <> null_literal -> String.eqb (string_of_list_byte data) "null" = false.
Proof.
  intros E. apply String.eqb_neq. intros C. apply E. now apply is_null_literal.
Qed.

Section Facts.

Context {T : Type} `{GoType T} `{JSON T} `{SQL T}.

(** The null branch of UnmarshalJSON, run from any state. *)
Lemma UnmarshalJSON_null_run (n : Nullable T) :
  runState (UnmarshalJSON null_literal) n
  = (None, mk_Nullable (mk_sql_Null (V (Null n)) false)).
Proof. reflexivity. Qed.

(** The other branch of UnmarshalJSON, run from any state. *)
Lemma UnmarshalJSON_value_run (data : bytes) (n : Nullable T) :
  data <> null_literal ->
  runState (UnmarshalJSON data) n
  = runState (on_V (json_Unmarshal data))
             (mk_Nullable (mk_sql_Null (V (Null n)) true)).
Proof.
  intros E. unfold UnmarshalJSON. rewrite (null_test_false _ E). reflexivity.
Qed.

Lemma on_V_keeps_Valid {A} (c : state T A) (n : Nullable T) :
  Valid (Null (snd (runState (on_V c) n))) = Valid (Null n).
Proof.
  unfold on_V. simpl. destruct (runState c (V (Null n))). reflexivity.
Qed.

Lemma on_V_result {A} (c : state T A) (n : Nullable T) :
  fst (runState (on_V c) n) = fst (runState c (V (Null n))).
Proof.
  unfold on_V. simpl. destruct (runState c (V (Null n))). reflexivity.
Qed.

Lemma on_V_stores {A} (c : state T A) (n : Nullable T) :
  V (Null (snd (runState (on_V c) n))) = snd (runState c (V (Null n))).
Proof.
  unfold on_V. simpl. destruct (runState c (V (Null n))). reflexivity.
Qed.

Lemma Scan_nil_run (n : Nullable T) :
  runState (Scan None) n = (None, NewNull).
Proof. reflexivity. Qed.

Lemma Scan_value_Valid (src : driver_Value) (n : Nullable T) :
  Valid (Null (snd (runState (Scan (Some src)) n))) = true.
Proof.
  unfold Scan, on_Null, sql_Null_Scan. simpl.
  destruct (runState (convertAssign src) (V (Null n))). reflexivity.
Qed.

End Facts.

Import Elem.

(** ** Decoding the literal null *)

(** C1, as the code has it: for every element type T and every prior
    state, UnmarshalJSON on exactly the four bytes [null] returns no error
    and clears Valid; V keeps the value it had, so the result is the null
    container whenever V already was the zero value. *)
Theorem UnmarshalJSON_null_keeps_V
    {T} `{GoType T} `{JSON T} (n : Nullable T) :
  runState (UnmarshalJSON null_literal) n
  = (None, mk_Nullable (mk_sql_Null (V (Null n)) false))
  /\ (V (Null n) = zero ->
      runState (UnmarshalJSON null_literal) n = (None, NewNull)).
Proof.
  split.
  - apply UnmarshalJSON_null_run.
  - intros E. rewrite UnmarshalJSON_null_run, E. reflexivity.
Qed.

Lemma UnmarshalJSON_null_keeps_V_witness :
  V (Null (NewNull (T := bool))) = zero
  /\ runState (UnmarshalJSON null_literal) (NewNull (T := bool))
     = (None, NewNull).
Proof.
  split; [reflexivity |].
  apply (UnmarshalJSON_null_keeps_V (NewNull (T := bool))). reflexivity.
Defined.

(** C1 as stated fails: a Nullable[bool] holding true still holds true in
    V after decoding [null]; V is not reset to false, the zero value. *)
Lemma UnmarshalJSON_null_no_reset :
  runState (UnmarshalJSON null_literal) (NewNullable true)
  = (None, mk_Nullable (mk_sql_Null true false))
  /\ V (Null (snd (runState (UnmarshalJSON null_literal) (NewNullable true))))
     <> (zero : bool).
Proof.
  split; [reflexivity | discriminate].
Qed.

(** ** The invariant *)

Section Invariant.

Context {T : Type} `{GoType T} `{JSON T} `{SQL T}.

Lemma NewNullable_inv (v : T) : null_is_zero (NewNullable v).
Proof. unfold null_is_zero. simpl. discriminate. Qed.

Lemma NewNull_inv : null_is_zero (NewNull (T := T)).
Proof. unfold null_is_zero. reflexivity. Qed.

Lemma Scan_inv (value : option driver_Value) (n : Nullable T) :
  null_is_zero (snd (runState (Scan value) n)).
Proof.
  destruct value as [src |].
  - unfold null_is_zero. rewrite Scan_value_Valid. discriminate.
  - rewrite Scan_nil_run. apply NewNull_inv.
Qed.

Lemma UnmarshalJSON_value_inv (data : bytes) (n : Nullable T) :
  data <> null_literal ->
  null_is_zero (snd (runState (UnmarshalJSON data) n)).
Proof.
  intros E. unfold null_is_zero.
  rewrite (UnmarshalJSON_value_run data n E), on_V_keeps_Valid.
  simpl. discriminate.
Qed.

Lemma UnmarshalJSON_null_inv (n : Nullable T) :
  null_is_zero (snd (runState (UnmarshalJSON null_literal) n))
  <-> V (Null n) = zero.
Proof.
  rewrite UnmarshalJSON_null_run. unfold null_is_zero. simpl.
  split; intros E; [now apply E | intros _; exact E].
Qed.

End Invariant.

(** C2, as the code has it: "Valid false implies V zero" holds of what
    NewNullable and NewNull return, holds after every Scan, and holds
    after every UnmarshalJSON of data other than the literal [null];
    after UnmarshalJSON of the literal [null] it holds exactly when V
    already was the zero value. *)
Theorem null_is_zero_where_kept {T} `{GoType T} `{JSON T} `{SQL T} :
  (forall v : T, null_is_zero (NewNullable v))
  /\ null_is_zero (NewNull (T := T))
  /\ (forall (value : option driver_Value) (n : Nullable T),
        null_is_zero (snd (runState (Scan value) n)))
  /\ (forall (data : bytes) (n : Nullable T),
        data <> null_literal ->
        null_is_zero (snd (runState (UnmarshalJSON data) n)))
  /\ (forall n : Nullable T,
        null_is_zero (snd (runState (UnmarshalJSON null_literal) n))
        <-> V (Null n) = zero).
Proof.
  split; [exact NewNullable_inv |].
  split; [exact NewNull_inv |].
  split; [exact Scan_inv |].
  split; [exact UnmarshalJSON_value_inv | exact UnmarshalJSON_null_inv].
Qed.

Lemma null_is_zero_where_kept_witness :
  list_byte_of_string "true" <> null_literal
  /\ null_is_zero (T := bool)
       (snd (runState (UnmarshalJSON (list_byte_of_string "true"))
                      (NewNull (T := bool))))
  /\ null_is_zero (T := bool) (snd (runState (Scan (T := bool) (Some true)) NewNull))
  /\ null_is_zero (T := bool)
       (snd (runState (UnmarshalJSON null_literal) (NewNullable false))).
Proof.
  pose proof (null_is_zero_where_kept (T := bool)) as (_ & _ & HS & HU & HN).
  assert (E : list_byte_of_string "true" <> null_literal) by discriminate.
  split; [exact E |].
  split; [exact (HU _ NewNull E) |].
  split; [exact (HS (Some true) NewNull) |].
  apply HN. reflexivity.
Defined.

(** C2 as stated fails: a Nullable[bool] built by NewNullable(true)
    satisfies the invariant, and after UnmarshalJSON of [null] it has
    Valid false with V still true. *)
Lemma null_is_zero_broken_by_null :
  null_is_zero (NewNullable true)
  /\ ~ null_is_zero (T := bool)
         (snd (runState (UnmarshalJSON null_literal) (NewNullable true))).
Proof.
  split.
  - apply NewNullable_inv.
  - intros C. specialize (C eq_refl). discriminate C.
Qed.

(** ** Decoding anything else *)

(** C3: for every T and every data other than the four bytes [null],
    UnmarshalJSON first sets Valid to true and then runs T's JSON decode
    on V in that state; the error it returns is the decode's error, and
    Valid is true afterwards whether or not the decode failed. *)
Theorem UnmarshalJSON_value_sets_Valid_first
    {T} `{GoType T} `{JSON T} (data : bytes) (n : Nullable T) :
  data <> null_literal ->
  runState (UnmarshalJSON data) n
  = runState (on_V (json_Unmarshal data))
             (snd (runState (set_Valid true) n))
  /\ Valid (Null (snd (runState (set_Valid true) n))) = true
  /\ fst (runState (UnmarshalJSON data) n)
     = fst (runState (json_Unmarshal data) (V (Null n)))
  /\ Valid (Null (snd (runState (UnmarshalJSON data) n))) = true.
Proof.
  intros E. rewrite (UnmarshalJSON_value_run data n E).
  split; [reflexivity |]. split; [reflexivity |]. split.
  - now rewrite on_V_result.
  - now rewrite on_V_keeps_Valid.
Qed.

Lemma UnmarshalJSON_value_sets_Valid_first_witness :
  list_byte_of_string "tru" <> null_literal
  /\ fst (runState (UnmarshalJSON (list_byte_of_string "tru"))
                   (NewNull (T := bool)))
     = Some json_error
  /\ Valid (Null (snd (runState (UnmarshalJSON (list_byte_of_string "tru"))
                                (NewNull (T := bool))))) = true.
Proof.
  assert (E : list_byte_of_string "tru" <> null_literal) by discriminate.
  destruct (UnmarshalJSON_value_sets_Valid_first
              (list_byte_of_string "tru") (NewNull (T := bool)) E)
    as (_ & _ & HE & HV).
  split; [exact E |]. split; [| exact HV].
  rewrite HE. reflexivity.
Defined.

(** C10: the test for null compares the bytes with the four bytes
    [null].  Data that is the JSON document null without being exactly
    those bytes, such as [ null] with a space in front, goes through the
    other branch: Valid is set to true, T's decode runs, and the container
    is valid afterwards. *)
Theorem UnmarshalJSON_padded_null_is_valid
    {T} `{GoType T} `{JSON T} (data : bytes) (n : Nullable T) :
  denotes_json_null data = true ->
  data <> null_literal ->
  runState (UnmarshalJSON data) n
  = runState (set_Valid true ;; on_V (json_Unmarshal data)) n
  /\ Valid (Null (snd (runState (UnmarshalJSON data) n))) = true.
Proof.
  intros _ E. rewrite (UnmarshalJSON_value_run data n E).
  split; [reflexivity | now rewrite on_V_keeps_Valid].
Qed.

Lemma UnmarshalJSON_padded_null_is_valid_witness :
  denotes_json_null (list_byte_of_string " null") = true
  /\ list_byte_of_string " null" <> null_literal
  /\ runState (UnmarshalJSON (list_byte_of_string " null"))
              (NewNull (T := bool))
     = (None, mk_Nullable (mk_sql_Null false true)).
Proof.
  assert (E : list_byte_of_string " null" <> null_literal) by discriminate.
  split; [reflexivity |]. split; [exact E |].
  destruct (UnmarshalJSON_padded_null_is_valid
              (list_byte_of_string " null") (NewNull (T := bool))
              eq_refl E) as (HR & _).
  rewrite HR. reflexivity.
Defined.

(** ** Encoding *)

(** C5: for every T, MarshalJSON of the null container returns exactly
    the four bytes n, u, l, l and no error. *)
Theorem MarshalJSON_NewNull {T} `{GoType T} `{JSON T} :
  MarshalJSON (NewNull (T := T)) = ([x6e; x75; x6c; x6c], None)
  /\ List.length (fst (MarshalJSON (NewNull (T := T)))) = 4.
Proof. split; reflexivity. Qed.

(** ** The storage side *)

(** C6: for every T and every prior state, Scan of a nil input returns no
    error and leaves Valid false and V the zero value of T. *)
Theorem Scan_nil {T} `{GoType T} `{SQL T} (n : Nullable T) :
  fst (runState (Scan None) n) = None
  /\ Valid (Null (snd (runState (Scan None) n))) = false
  /\ V (Null (snd (runState (Scan None) n))) = zero.
Proof.
  rewrite Scan_nil_run. simpl. split; [| split]; reflexivity.
Qed.

(** C7: Value never returns an error.  An invalid container gives T's
    zero value and a valid one gives the stored value, both with a nil
    error; an invalid Nullable[string] gives the empty string whatever V
    holds. *)
Theorem Value_never_fails {T} `{GoType T} (n : Nullable T) :
  snd (Value n) = None
  /\ Value n = ((if Valid (Null n) then V (Null n) else zero), None)
  /\ (forall s : string,
        Value (mk_Nullable (mk_sql_Null s false)) = (""%string, None)).
Proof.
  unfold Value. destruct (Valid (Null n)); simpl; repeat split.
Qed.

(** ** Accessors *)

(** C8: for every T, value v and default d, ValueOr on NewNullable(v)
    returns v and ValueOr on NewNull returns d.  ValueOr has a value
    receiver and returns only a T: it has no container to write to. *)
Theorem ValueOr_spec {T} `{GoType T} (v d : T) :
  ValueOr (NewNullable v) d = v
  /\ ValueOr NewNull d = d.
Proof. split; reflexivity. Qed.

(** C9: for every T and value v, Ptr on NewNullable(v) is a non-nil
    pointer to a value equal to v, and Ptr on NewNull is nil. *)
Theorem Ptr_spec {T} `{GoType T} (v : T) :
  Ptr (NewNullable v) = addr_of v
  /\ Ptr (NewNullable v) <> nil_ptr
  /\ Ptr (NewNull (T := T)) = nil_ptr.
Proof. repeat split. discriminate. Qed.

(** ** Round trip through JSON *)

Section RoundTrip.

Context {T : Type} `{GoType T} `{JSON T}.

Lemma MarshalJSON_NewNullable (v : T) :
  MarshalJSON (NewNullable v) = json_Marshal v.
Proof. reflexivity. Qed.

(** Decoding into a container declared with [var n Nullable[T]], which
    is what NewNull returns, when the data is not the literal null. *)
Lemma UnmarshalJSON_fresh (data : bytes) (e : option error) (v : T) :
  data <> null_literal ->
  runState (json_Unmarshal data) zero = (e, v) ->
  runState (UnmarshalJSON data) NewNull = (e, NewNullable v).
Proof.
  intros E D. rewrite (UnmarshalJSON_value_run data NewNull E).
  unfold on_V. simpl. rewrite D. reflexivity.
Qed.

End RoundTrip.

(** C4, as the code has it: for every T and every v that T's JSON codec
    encodes to bytes other than [null] and decodes back from those bytes
    into a zero target, encoding NewNullable(v) and decoding the bytes
    into a fresh container gives NewNullable(v) and no error; encoding
    NewNull and decoding gives NewNull; and a v that T's codec encodes as
    [null] comes back as NewNull. *)
Theorem JSON_round_trip {T} `{GoType T} `{JSON T} :
  (forall (v : T) (data : bytes),
     json_Marshal v = (data, None) ->
     data <> null_literal ->
     runState (json_Unmarshal data) zero = (None, v) ->
     MarshalJSON (NewNullable v) = (data, None)
     /\ runState (UnmarshalJSON data) NewNull = (None, NewNullable v))
  /\ (MarshalJSON (NewNull (T := T)) = (null_literal, None)
      /\ runState (UnmarshalJSON null_literal) (NewNull (T := T))
         = (None, NewNull))
  /\ (forall v : T,
        json_Marshal v = (null_literal, None) ->
        MarshalJSON (NewNullable v) = (null_literal, None)
        /\ runState (UnmarshalJSON null_literal) (NewNull (T := T))
           = (None, NewNull)).
Proof.
  split; [| split].
  - intros v data M E D. split.
    + now rewrite MarshalJSON_NewNullable.
    + now apply UnmarshalJSON_fresh.
  - split; reflexivity.
  - intros v M. split.
    + now rewrite MarshalJSON_NewNullable.
    + reflexivity.
Qed.

Lemma JSON_round_trip_witness :
  json_Marshal true = (list_byte_of_string "true", None)
  /\ list_byte_of_string "true" <> null_literal
  /\ runState (json_Unmarshal (list_byte_of_string "true")) (zero : bool)
     = (None, true)
  /\ MarshalJSON (NewNullable true) = (list_byte_of_string "true", None)
  /\ runState (UnmarshalJSON (list_byte_of_string "true")) NewNull
     = (None, NewNullable true).
Proof.
  assert (E : list_byte_of_string "true" <> null_literal) by discriminate.
  split; [reflexivity |]. split; [exact E |]. split; [reflexivity |].
  exact (proj1 (JSON_round_trip (T := bool)) true _ eq_refl E eq_refl).
Defined.

(** Nullable[*bool]: encoding/json takes every *bool to bytes and back. *)
Lemma JSON_ptr_bool_round_trip (p : ptr bool) :
  snd (json_Marshal p) = None
  /\ runState (json_Unmarshal (fst (json_Marshal p))) zero = (None, p).
Proof. destruct p as [| [|]]; split; reflexivity. Qed.

(** C4 as stated fails at T = *bool and v = nil: encoding/json takes
    every *bool to bytes and back, yet NewNullable(nil) is encoded as
    [null], which decodes into a fresh container as the null container,
    whose Valid differs from that of NewNullable(nil). *)
Lemma JSON_round_trip_nil_pointer :
  (forall p : ptr bool,
     snd (json_Marshal p) = None
     /\ runState (json_Unmarshal (fst (json_Marshal p))) zero = (None, p))
  /\ MarshalJSON (NewNullable (nil_ptr : ptr bool)) = (null_literal, None)
  /\ runState (UnmarshalJSON null_literal) (NewNull (T := ptr bool))
     = (None, NewNull)
  /\ snd (runState
            (UnmarshalJSON
               (fst (MarshalJSON (NewNullable (nil_ptr : ptr bool)))))
            NewNull)
     <> NewNullable (nil_ptr : ptr bool).
Proof.
  split; [exact JSON_ptr_bool_round_trip |].
  split; [reflexivity |]. split; [reflexivity |].
  discriminate.
Qed.

(** ** The package's tests, run on the embedding *)

Example TestValueOr :
  ValueOr (NewNullable "hello") "default" = "hello"
  /\ ValueOr (NewNull (T := string)) "default" = "default".
Proof. split; reflexivity. Qed.

Example TestValue :
  Value (NewNullable "test") = ("test", None)
  /\ Value (NewNull (T := string)) = ("", None).
Proof. split; reflexivity. Qed.

Example TestPtr :
  Ptr (NewNullable true) = addr_of true
  /\ Ptr (NewNull (T := bool)) = nil_ptr.
Proof. split; reflexivity. Qed.

Example TestMarshalJSON :
  MarshalJSON (NewNullable true) = (list_byte_of_string "true", None)
  /\ MarshalJSON (NewNull (T := bool)) = (list_byte_of_string "null", None).
Proof. split; reflexivity. Qed.

Example TestUnmarshalJSON :
  runState (UnmarshalJSON (list_byte_of_string "true")) (NewNull (T := bool))
  = (None, NewNullable true)
  /\ runState (UnmarshalJSON (list_byte_of_string "null")) (NewNull (T := bool))
     = (None, NewNull).
Proof. split; reflexivity. Qed.

Example TestScan :
  runState (Scan (T := bool) (Some true)) NewNull = (None, NewNullable true)
  /\ runState (Scan (T := bool) None) NewNull = (None, NewNull).
Proof. split; reflexivity. Qed.

Import ElemFmt.

Example TestString :
  String (NewNullable "test") = "test"
  /\ String (NewNull (T := string)) = "null"
  /\ String (NewNullable true) = "true".
Proof. repeat split. Qed.

(** ** What the accessors show of a container *)

(** String returns the word null exactly when the container is invalid or
    T's own rendering of the stored value is that word: the display
    string does not tell a null container from a valid one whose value
    prints as null. *)
Theorem String_null_iff {T} `{Fmt T} (n : Nullable T) :
  String n = "null"
  <-> Valid (Null n) = false \/ fmt_v (V (Null n)) = "null".
Proof.
  unfold String. destruct (Valid (Null n)); simpl; split.
  - intros E. now right.
  - intros [C | E]; [discriminate C | exact E].
  - intros _. now left.
  - reflexivity.
Qed.

Lemma String_null_iff_witness :
  Valid (Null (NewNullable "null")) = true
  /\ String (NewNullable "null") = String (NewNull (T := string)).
Proof.
  split; [reflexivity |].
  transitivity "null".
  - apply (proj2 (String_null_iff (NewNullable "null"))). right. reflexivity.
  - reflexivity.
Defined.

(** No value-receiver method reads V of an invalid container: two
    containers with Valid false give the same Ptr, ValueOr, MarshalJSON,
    Value and String, whatever their V fields hold. *)
Theorem invalid_containers_look_alike
    {T} `{GoType T} `{JSON T} `{Fmt T} (n m : Nullable T) :
  Valid (Null n) = false ->
  Valid (Null m) = false ->
  Ptr n = Ptr m
  /\ (forall d : T, ValueOr n d = ValueOr m d)
  /\ MarshalJSON n = MarshalJSON m
  /\ Value n = Value m
  /\ String n = String m.
Proof.
  intros En Em.
  unfold Ptr, ValueOr, MarshalJSON, Value, String.
  rewrite En, Em. simpl. repeat split.
Qed.

Lemma invalid_containers_look_alike_witness :
  snd (runState (UnmarshalJSON null_literal) (NewNullable true)) <> NewNull
  /\ Ptr (snd (runState (UnmarshalJSON null_literal) (NewNullable true)))
     = nil_ptr
  /\ MarshalJSON (snd (runState (UnmarshalJSON null_literal) (NewNullable true)))
     = (null_literal, None)
  /\ Value (snd (runState (UnmarshalJSON null_literal) (NewNullable true)))
     = (false, None)
  /\ String (snd (runState (UnmarshalJSON null_literal) (NewNullable true)))
     = "null".
Proof.
  destruct (invalid_containers_look_alike (T := bool)
              (snd (runState (UnmarshalJSON null_literal) (NewNullable true)))
              NewNull eq_refl eq_refl) as (HP & _ & HM & HV & HS).
  split; [discriminate |].
  split; [exact HP |]. split; [exact HM |]. split; [exact HV | exact HS].
Defined.

(** Ptr is nil exactly for an invalid container.  When Ptr points to x,
    ValueOr returns x for every default and Value returns x; when Ptr is
    nil, ValueOr returns the default and Value returns T's zero value. *)
Theorem Ptr_agrees_with_ValueOr {T} `{GoType T} (n : Nullable T) :
  (Ptr n = nil_ptr <-> Valid (Null n) = false)
  /\ (forall x : T, Ptr n = addr_of x ->
        forall d : T, ValueOr n d = x /\ Value n = (x, None))
  /\ (Ptr n = nil_ptr ->
        forall d : T, ValueOr n d = d /\ Value n = (zero, None)).
Proof.
  unfold Ptr, ValueOr, Value.
  destruct (Valid (Null n)); simpl.
  - split; [split; discriminate |]. split.
    + intros x E d. injection E as E. rewrite E. split; reflexivity.
    + discriminate.
  - split; [split; reflexivity |]. split.
    + discriminate.
    + intros _ d. split; reflexivity.
Qed.

Lemma Ptr_agrees_with_ValueOr_witness :
  Ptr (NewNullable "Bob") = addr_of "Bob"
  /\ ValueOr (NewNullable "Bob") "Unknown" = "Bob"
  /\ Value (NewNullable "Bob") = ("Bob", None).
Proof.
  destruct (Ptr_agrees_with_ValueOr (NewNullable "Bob")) as (_ & HV & _).
  split; [reflexivity |]. exact (HV "Bob" eq_refl "Unknown").
Defined.

(** Value is ValueOr with T's zero value as the default, paired with a
    nil error.  So the null container and the valid container holding
    the zero value give the same Value, although they are different
    containers and Ptr tells them apart. *)
Theorem Value_forgets_validity {T} `{GoType T} (n : Nullable T) :
  Value n = (ValueOr n zero, None)
  /\ Value (NewNull (T := T)) = Value (NewNullable zero)
  /\ NewNull (T := T) <> NewNullable zero
  /\ Ptr (NewNull (T := T)) <> Ptr (NewNullable zero).
Proof.
  split; [| split; [| split]].
  - unfold Value, ValueOr. destruct (Valid (Null n)); reflexivity.
  - reflexivity.
  - discriminate.
  - discriminate.
Qed.

(** ** Decoding into a container that is in use *)

(** UnmarshalJSON writes Valid without reading it: from two containers
    with the same V it returns the same error and leaves the same
    container, whether they were valid or null before. *)
Theorem UnmarshalJSON_ignores_prior_Valid
    {T} `{JSON T} (data : bytes) (n m : Nullable T) :
  V (Null n) = V (Null m) ->
  runState (UnmarshalJSON data) n = runState (UnmarshalJSON data) m.
Proof.
  destruct n as [[v b]], m as [[w c]]. simpl. intros E. subst w.
  unfold UnmarshalJSON.
  destruct (String.eqb (string_of_list_byte data) "null"); reflexivity.
Qed.

Lemma UnmarshalJSON_ignores_prior_Valid_witness :
  NewNullable false <> NewNull
  /\ runState (UnmarshalJSON (list_byte_of_string "true")) (NewNullable false)
     = runState (UnmarshalJSON (list_byte_of_string "true")) NewNull.
Proof.
  split; [discriminate |].
  apply (UnmarshalJSON_ignores_prior_Valid (T := bool)). reflexivity.
Defined.

(** After UnmarshalJSON of data other than the literal null, the
    accessors show what T's decoder left in V, also when the decoder
    failed: UnmarshalJSON returns the decoder's error, and afterwards Value
    returns that V with a nil error, ValueOr ignores its default, Ptr is
    not nil and MarshalJSON encodes that V. *)
Theorem accessors_after_UnmarshalJSON
    {T} `{GoType T} `{JSON T}
    (data : bytes) (n : Nullable T) (e : option error) (x : T) :
  data <> null_literal ->
  runState (json_Unmarshal data) (V (Null n)) = (e, x) ->
  runState (UnmarshalJSON data) n = (e, NewNullable x)
  /\ Value (snd (runState (UnmarshalJSON data) n)) = (x, None)
  /\ (forall d : T, ValueOr (snd (runState (UnmarshalJSON data) n)) d = x)
  /\ Ptr (snd (runState (UnmarshalJSON data) n)) = addr_of x
  /\ MarshalJSON (snd (runState (UnmarshalJSON data) n)) = json_Marshal x.
Proof.
  intros E D.
  assert (R : runState (UnmarshalJSON data) n = (e, NewNullable x)).
  { rewrite (UnmarshalJSON_value_run data n E).
    unfold on_V. simpl. rewrite D. reflexivity. }
  rewrite R. simpl. repeat split.
Qed.

Lemma accessors_after_UnmarshalJSON_witness :
  list_byte_of_string "tru" <> null_literal
  /\ runState (json_Unmarshal (list_byte_of_string "tru")) false
     = (Some json_error, false)
  /\ runState (UnmarshalJSON (list_byte_of_string "tru")) (NewNull (T := bool))
     = (Some json_error, NewNullable false)
  /\ Value (snd (runState (UnmarshalJSON (list_byte_of_string "tru"))
                          (NewNull (T := bool))))
     = (false, None).
Proof.
  assert (E : list_byte_of_string "tru" <> null_literal) by discriminate.
  assert (D : runState (json_Unmarshal (list_byte_of_string "tru"))
                       (V (Null (NewNull (T := bool))))
              = (Some json_error, false)) by reflexivity.
  destruct (accessors_after_UnmarshalJSON (T := bool)
              (list_byte_of_string "tru") NewNull (Some json_error) false
              E D) as (HR & HV & _).
  split; [exact E |]. split; [exact D |]. split; [exact HR | exact HV].
Defined.

(** Scan of a non-nil value that the driver conversion accepts leaves
    the container equal to NewNullable of the converted value, whatever
    it held before, and returns no error. *)
Theorem Scan_accepted_value
    {T} `{GoType T} `{SQL T}
    (src : driver_Value) (n : Nullable T) (x : T) :
  runState (convertAssign src) (V (Null n)) = (None, x) ->
  runState (Scan (Some src)) n = (None, NewNullable x).
Proof.
  intros C. unfold Scan, on_Null, sql_Null_Scan. simpl.
  rewrite C. reflexivity.
Qed.

Lemma Scan_accepted_value_witness :
  runState (convertAssign (T := bool) true) (V (Null NewNull)) = (None, true)
  /\ runState (Scan (T := bool) (Some true)) NewNull = (None, NewNullable true).
Proof.
  split; [reflexivity |].
  apply (Scan_accepted_value (T := bool)). reflexivity.
Defined.
